(** * docs/source/conf.py of hed-matlab: the Sphinx build configuration

    conf.py is a straight-line Python module.  Its statements bind
    module-level names which the documentation builder later reads by
    name.  Four statements touch the outside world:

    - line 15, [import sphinx_rtd_theme], runs the package's own code
      and passes on whatever that raises;
    - line 24 reads the system date ([date.today().year]);
    - line 32, [os.path.abspath(os.path.join("..", ".."))], asks the
      operating system for the current working directory;
    - line 66 calls [sphinx_rtd_theme.get_html_theme_path()].

    The package, the operating system and the helper are not part of
    the file: what each of them returns or raises is given by the
    environment, and the file passes it on.

    The embedding below makes that environment an explicit record,
    runs the module top to bottom in an error monad, and collects the
    bound names in a record with the field names of the source. *)

From Stdlib Require Import String Ascii List Bool ZArith Lia.
From Stdlib Require Import DecimalString DecimalZ.
Import ListNotations.

Open Scope list_scope.
Open Scope string_scope.

(** ** Python values that occur in the file *)

(** Right-hand sides stored in [html_theme_options]: str, bool and int. *)
Inductive value : Type :=
  | VStr (s : string)
  | VBool (b : bool)
  | VInt (n : Z).

(** Exceptions: the classes that have a part in the file by name, and
    any other class, which the code called from the file may raise. *)
Inductive exception : Type :=
  | ModuleNotFoundError (name : string)
  | FileNotFoundError
  | AttributeError (obj attr : string)
  | IndexError
  | OtherError (cls : string).

(** ** An error monad for straight-line module code *)

Inductive result (A : Type) : Type :=
  | Ok (a : A)
  | Raise (e : exception).
Arguments Ok {A} a.
Arguments Raise {A} e.

Definition bind {A B : Type} (m : result A) (k : A -> result B) : result B :=
  match m with
  | Ok a => k a
  | Raise e => Raise e
  end.

Notation "x <- m ;; k" := (bind m (fun x => k))
  (at level 61, m at next level, right associativity).

(** ** str methods *)

Module str.

(** [s.startswith(p)] *)
Fixpoint startswith (s p : string) {struct p} : bool :=
  match p with
  | EmptyString => true
  | String b p' =>
      match s with
      | EmptyString => false
      | String a s' => Ascii.eqb a b && startswith s' p'
      end
  end.

(** [s.endswith(p)] for a one-character [p] *)
Fixpoint endswith (s : string) (c : ascii) : bool :=
  match s with
  | EmptyString => false
  | String a EmptyString => Ascii.eqb a c
  | String _ s' => endswith s' c
  end.

(** [s.split(sep)] for a one-character separator: always at least one
    piece, and an empty piece between adjacent separators. *)
Fixpoint split (sep : ascii) (s : string) : list string :=
  match s with
  | EmptyString => [EmptyString]
  | String a s' =>
      if Ascii.eqb a sep then EmptyString :: split sep s'
      else match split sep s' with
           | [] => [String a EmptyString]
           | w :: ws => String a w :: ws
           end
  end.

(** [sep.join(l)] *)
Definition join (sep : string) (l : list string) : string :=
  String.concat sep l.

(** [c * n] for a one-character string *)
Fixpoint times (c : ascii) (n : nat) : string :=
  match n with
  | O => EmptyString
  | S n' => String c (times c n')
  end.

(** [sub in s] *)
Fixpoint contains (s sub : string) : bool :=
  startswith s sub ||
  match s with
  | EmptyString => false
  | String _ s' => contains s' sub
  end.

(** [str(n)] for an int: decimal digits, a minus sign when negative. *)
Definition of_int (n : Z) : string := NilZero.string_of_int (Z.to_int n).

(** [t.format(args...)] for templates in which braces occur only as
    the auto-numbered field [{}]; the arguments are passed already
    converted by [str].  A field with no argument left raises
    IndexError. *)
Fixpoint format (t : string) (args : list string) : result string :=
  match t with
  | EmptyString => Ok EmptyString
  | String "{" (String "}" t') =>
      match args with
      | [] => Raise IndexError
      | a :: args' => r <- format t' args' ;; Ok (a ++ r)
      end
  | String c t' => r <- format t' args ;; Ok (String c r)
  end.

End str.

(** ** os.path

    The functions line 32 calls, as CPython's posixpath defines them
    (the documentation is built on a POSIX system).  None of them
    looks at the file system: [join] and [normpath] work on the text
    of the path, and [abspath] only asks for the working directory. *)

Module posixpath.

Definition sep : ascii := "/"%char.

Definition isabs (path : string) : bool := str.startswith path "/".

(** One round of the loop of [join(a, *p)]. *)
Definition join_step (path b : string) : string :=
  if str.startswith b "/" then b
  else if (path =? "") || str.endswith path sep then path ++ b
  else path ++ "/" ++ b.

Definition join (a : string) (p : list string) : string :=
  fold_left join_step p a.

(** The count of leading slashes [normpath] keeps: POSIX gives a
    meaning to exactly two, three or more collapse to one. *)
Definition initial_slashes (path : string) : nat :=
  if str.startswith path "/" then
    if str.startswith path "//" && negb (str.startswith path "///")
    then 2 else 1
  else 0.

Definition is_empty {A : Type} (l : list A) : bool :=
  match l with [] => true | _ => false end.

(** Body of [for comp in comps:] in [normpath]; [new_comps] grows and
    shrinks at its right end ([append] / [pop]). *)
Definition normpath_step (slashes : nat) (new_comps : list string)
    (comp : string) : list string :=
  if (comp =? "") || (comp =? ".") then new_comps
  else if negb (comp =? "..")
          || ((slashes =? 0)%nat && is_empty new_comps)
          || (negb (is_empty new_comps) && (last new_comps "" =? ".."))
  then (new_comps ++ [comp])%list
  else if negb (is_empty new_comps) then removelast new_comps
  else new_comps.

Definition normpath (path : string) : string :=
  if path =? "" then "."
  else
    let slashes := initial_slashes path in
    let comps := str.split sep path in
    let new_comps := fold_left (normpath_step slashes) comps [] in
    let path' := str.join "/" new_comps in
    let path' := str.times sep slashes ++ path' in
    if path' =? "" then "." else path'.

(** [abspath]: the working directory is only consulted for a relative
    argument; [getcwd] is the outcome of [os.getcwd()]. *)
Definition abspath (getcwd : result string) (path : string) : result string :=
  if isabs path then Ok (normpath path)
  else cwd <- getcwd ;; Ok (normpath (join cwd [path])).

End posixpath.

(** ** The environment conf.py runs in *)

(** [datetime.date]: three ints. *)
Record date : Type := { year : Z; month : Z; day : Z }.

(** What [import sphinx_rtd_theme] binds: the one attribute the file
    uses.  The field is the outcome of evaluating
    [sphinx_rtd_theme.get_html_theme_path()]: the string the helper
    returns, or the exception that the attribute lookup or the call
    raises (AttributeError for a release of the package that no longer
    has the helper). *)
Record theme_module : Type := { get_html_theme_path : result string }.

(** - [conf_dir]: the directory that holds conf.py.  The documentation
      builder changes into it before it executes the file, which is
      why lines 9-11 can speak of paths relative to the documentation
      root; the file itself never reads its own location (there is no
      [__file__] in the source).
    - [today]: what [date.today()] returns.
    - [getcwd]: the outcome of [os.getcwd()]: the working directory of
      the process, or the exception raised when the operating system
      cannot resolve it (FileNotFoundError after the directory was
      removed, for instance).
    - [import_theme]: the outcome of [import sphinx_rtd_theme]: the
      module, or whatever exception importing the package raises
      (ModuleNotFoundError for the package itself or for a package it
      needs, or anything its top-level code raises). *)
Record Env : Type := {
  conf_dir : string;
  today : date;
  getcwd : result string;
  import_theme : result theme_module
}.

(** The working directory of the process, when there is one. *)
Definition cwd (env : Env) : option string :=
  match getcwd env with
  | Ok d => Some d
  | Raise _ => None
  end.

(** Line 15. *)
Definition import_sphinx_rtd_theme (env : Env) : result theme_module :=
  import_theme env.

(** [os.getcwd()], as [os.path.abspath] calls it on line 32. *)
Definition os_getcwd (env : Env) : result string := getcwd env.

(** [sphinx_rtd_theme.get_html_theme_path()] of line 66. *)
Definition call_get_html_theme_path (m : theme_module) : result string :=
  get_html_theme_path m.

(** ** The names conf.py binds *)

Record BuildConfiguration : Type := {
  project : string;
  copyright : string;
  author : string;
  version : string;
  release : string;
  matlab_src_dir : string;
  extensions : list string;
  primary_domain : string;
  autosummary_generate : bool;
  autodoc_default_flags : list string;
  add_module_names : bool;
  myst_all_links_external : bool;
  myst_heading_anchors : Z;
  myst_enable_extensions : list string;
  templates_path : list string;
  source_suffix : list string;
  master_doc : string;
  exclude_patterns : list string;
  pygments_style : string;
  html_theme : string;
  html_theme_path : list string;
  html_theme_options : list (string * value);
  html_static_path : list string
}.

(** ** The module body, statement by statement *)

(** Line 24, right-hand side. *)
Definition copyright_stmt (env : Env) : result string :=
  str.format "2017-{}, HED Working Group" [str.of_int (year (today env))].

(** Line 32, right-hand side. *)
Definition matlab_src_dir_stmt (env : Env) : result string :=
  posixpath.abspath (os_getcwd env) (posixpath.join ".." [".."]).

(** Lines 71-86. *)
Definition html_theme_options_stmt : list (string * value) :=
  [ ("analytics_id", VStr "UA-XXXXXXX-1");
    ("analytics_anonymize_ip", VBool false);
    ("logo_only", VBool false);
    ("display_version", VBool true);
    ("prev_next_buttons_location", VStr "top");
    ("style_external_links", VBool false);
    ("vcs_pageview_mode", VStr "");
    ("style_nav_header_background", VStr "LightSlateGray");
    ("collapse_navigation", VBool false);
    ("sticky_navigation", VBool true);
    ("navigation_depth", VInt 4);
    ("includehidden", VBool true);
    ("titles_only", VBool false) ].

(** Running conf.py: the statements in source order.  The imports of
    lines 13, 14 and 16 bring in modules of the standard library.  The
    first statement that raises ends the run, its exception goes to
    the caller as it is (the file has no [try]), and nothing bound so
    far is returned. *)
Definition conf (env : Env) : result BuildConfiguration :=
  sphinx_rtd_theme <- import_sphinx_rtd_theme env ;;
  let project := "HED Resources" in
  copyright <- copyright_stmt env ;;
  let author := "HED Working Group" in
  let version := "0.0.1" in
  let release := "0.0.1" in
  matlab_src_dir <- matlab_src_dir_stmt env ;;
  let extensions :=
    [ "myst_parser";
      "sphinxcontrib.matlab";
      "sphinx.ext.autodoc" ] in
  let primary_domain := "mat" in
  let autosummary_generate := true in
  let autodoc_default_flags := ["members"; "inherited-members"] in
  let add_module_names := false in
  let myst_all_links_external := false in
  let myst_heading_anchors := 4%Z in
  let myst_enable_extensions := ["deflist"] in
  let templates_path := ["_templates"] in
  let source_suffix := [".rst"; ".md"] in
  let master_doc := "index" in
  let exclude_patterns := ["_build"; "_templates"; "Thumbs.db"; ".DS_Store"] in
  let pygments_style := "sphinx" in
  let html_theme := "sphinx_rtd_theme" in
  theme_path <- call_get_html_theme_path sphinx_rtd_theme ;;
  let html_theme_path := [theme_path] in
  let html_theme_options := html_theme_options_stmt in
  let html_static_path := ["_static"] in
  Ok (Build_BuildConfiguration
        project copyright author version release matlab_src_dir
        extensions primary_domain autosummary_generate
        autodoc_default_flags add_module_names myst_all_links_external
        myst_heading_anchors myst_enable_extensions templates_path
        source_suffix master_doc exclude_patterns pygments_style
        html_theme html_theme_path html_theme_options html_static_path).

(** ** Environments used as concrete inputs *)

Definition rtd_theme : theme_module :=
  {| get_html_theme_path := Ok "/usr/lib/python3/site-packages" |}.

(** The builder's own way of running the file: from the directory that
    holds it. *)
Definition env_sphinx : Env :=
  {| conf_dir := "/repo/docs/source";
     today := {| year := 2024; month := 3; day := 1 |};
     getcwd := Ok "/repo/docs/source";
     import_theme := Ok rtd_theme |}.


(** A build in the start year. *)
Definition env_2017 : Env :=
  {| conf_dir := "/repo/docs/source";
     today := {| year := 2017; month := 12; day := 31 |};
     getcwd := Ok "/repo/docs/source";
     import_theme := Ok rtd_theme |}.

(** The working directory has been removed under the process. *)
Definition env_no_cwd : Env :=
  {| conf_dir := "/repo/docs/source";
     today := {| year := 2024; month := 3; day := 1 |};
     getcwd := Raise FileNotFoundError;
     import_theme := Ok rtd_theme |}.

(** The theme package is installed, the builder it is made for is
    not: importing the theme raises for the missing package. *)
Definition env_no_sphinx : Env :=
  {| conf_dir := "/repo/docs/source";
     today := {| year := 2024; month := 3; day := 1 |};
     getcwd := Ok "/repo/docs/source";
     import_theme := Raise (ModuleNotFoundError "sphinx") |}.

(** ** A statement of the specification that the code does not satisfy
    as worded, kept as a proposition to be refuted *)

Definition disjoint (l1 l2 : list string) : Prop :=
  forall s, In s l1 -> ~ In s l2.

Definition spec_exclude_disjoint_from_templates : Prop :=
  forall env cfg, conf env = Ok cfg ->
    disjoint (exclude_patterns cfg) (templates_path cfg).

(** ** Path components *)

Fixpoint has_sep (s : string) : bool :=
  match s with
  | EmptyString => false
  | String a s' => Ascii.eqb a posixpath.sep || has_sep s'
  end.

(** A directory name as [getcwd] reports them: not empty, not [.] or
    [..], and free of slashes. *)
Definition plain (c : string) : bool :=
  negb (c =? "") && negb (c =? ".") && negb (c =? "..") && negb (has_sep c).

(** A component fit for joining: not empty and free of slashes.  [.]
    and [..] qualify. *)
Definition comp_ok (c : string) : bool := negb (c =? "") && negb (has_sep c).

(** The absolute path [/c1/c2/.../cn]; the root for the empty list. *)
Definition abs_of (cs : list string) : string := "/" ++ str.join "/" cs.


(** * Proofs *)

(** ** The library functions on concrete inputs *)

Example split_abs : str.split "/" "/a/b/../.." = [""; "a"; "b"; ".."; ".."].
Proof. reflexivity. Qed.

Example split_trailing : str.split "/" "a/" = ["a"; ""].
Proof. reflexivity. Qed.

Example join_dotdot : posixpath.join ".." [".."] = "../..".
Proof. reflexivity. Qed.

Example join_absolute_wins : posixpath.join "/a" ["b"; "/c"; "d"] = "/c/d".
Proof. reflexivity. Qed.

Example normpath_up : posixpath.normpath "/a/b/c/../.." = "/a".
Proof. reflexivity. Qed.

Example normpath_root : posixpath.normpath "/a/../../.." = "/".
Proof. reflexivity. Qed.

Example normpath_two_slashes : posixpath.normpath "//a/./b/" = "//a/b".
Proof. reflexivity. Qed.

Example normpath_three_slashes : posixpath.normpath "///a//b" = "/a/b".
Proof. reflexivity. Qed.

Example normpath_relative : posixpath.normpath "a/../../b" = "../b".
Proof. reflexivity. Qed.

Example normpath_empty : posixpath.normpath "" = ".".
Proof. reflexivity. Qed.

Example format_year :
  str.format "2017-{}, HED Working Group" [str.of_int 2031] =
  Ok "2017-2031, HED Working Group".
Proof. reflexivity. Qed.

Example format_no_argument : str.format "2017-{}" [] = Raise IndexError.
Proof. reflexivity. Qed.

Example conf_no_cwd_raises : conf env_no_cwd = Raise FileNotFoundError.
Proof. reflexivity. Qed.

Example conf_no_theme_raises :
  conf {| conf_dir := "/repo/docs/source";
          today := {| year := 2024; month := 3; day := 1 |};
          getcwd := Raise FileNotFoundError;
          import_theme := Raise (ModuleNotFoundError "sphinx_rtd_theme") |}
  = Raise (ModuleNotFoundError "sphinx_rtd_theme").
Proof. reflexivity. Qed.

Example conf_no_helper_raises :
  conf {| conf_dir := "/repo/docs/source";
          today := {| year := 2024; month := 3; day := 1 |};
          getcwd := Ok "/repo/docs/source";
          import_theme :=
            Ok {| get_html_theme_path :=
                    Raise (AttributeError "sphinx_rtd_theme"
                             "get_html_theme_path") |} |}
  = Raise (AttributeError "sphinx_rtd_theme" "get_html_theme_path").
Proof. reflexivity. Qed.

Example conf_no_sphinx_raises :
  conf env_no_sphinx = Raise (ModuleNotFoundError "sphinx").
Proof. reflexivity. Qed.

Example conf_sphinx_src_dir :
  exists cfg, conf env_sphinx = Ok cfg /\ matlab_src_dir cfg = "/repo".
Proof. eexists. split; reflexivity. Qed.

(** ** The error monad *)

Lemma bind_Ok_inv {A B : Type} (m : result A) (k : A -> result B) (b : B) :
  bind m k = Ok b -> exists a, m = Ok a /\ k a = Ok b.
Proof.
  destruct m as [a|e]; simpl; intros H; [exists a; auto | discriminate].
Qed.

(** ** Running the module *)

Lemma copyright_stmt_eq (env : Env) :
  copyright_stmt env =
  Ok ("2017-" ++ str.of_int (year (today env)) ++ ", HED Working Group").
Proof. reflexivity. Qed.

(** What a successful run looks like: every effectful statement went
    through and the bound names are the literals of the source. *)
Lemma conf_Ok_inv (env : Env) (cfg : BuildConfiguration) :
  conf env = Ok cfg ->
  exists m d p,
    import_theme env = Ok m /\
    matlab_src_dir_stmt env = Ok d /\
    get_html_theme_path m = Ok p /\
    cfg = Build_BuildConfiguration
            "HED Resources"
            ("2017-" ++ str.of_int (year (today env)) ++ ", HED Working Group")
            "HED Working Group" "0.0.1" "0.0.1" d
            ["myst_parser"; "sphinxcontrib.matlab"; "sphinx.ext.autodoc"]
            "mat" true ["members"; "inherited-members"] false false 4%Z
            ["deflist"] ["_templates"] [".rst"; ".md"] "index"
            ["_build"; "_templates"; "Thumbs.db"; ".DS_Store"]
            "sphinx" "sphinx_rtd_theme" [p] html_theme_options_stmt
            ["_static"].
Proof.
  unfold conf, import_sphinx_rtd_theme. intros H.
  destruct (import_theme env) as [m|] eqn:Em; [|discriminate].
  rewrite copyright_stmt_eq in H. cbn [bind] in H.
  destruct (matlab_src_dir_stmt env) as [d|] eqn:Ed; [|discriminate].
  cbn [bind] in H. unfold call_get_html_theme_path in H.
  destruct (get_html_theme_path m) as [p|] eqn:Ep; [|discriminate].
  cbn [bind] in H. injection H as <-.
  exists m, d, p. repeat split; assumption.
Qed.

Ltac conf_inv H :=
  let m := fresh "m" in
  let d := fresh "d" in
  let p := fresh "p" in
  let Hm := fresh "Htheme" in
  let Hd := fresh "Hdir" in
  let Hp := fresh "Hpath" in
  apply conf_Ok_inv in H;
  destruct H as (m & d & p & Hm & Hd & Hp & ->);
  cbn [project copyright author version release matlab_src_dir extensions
       templates_path source_suffix exclude_patterns html_static_path].

(** ** Static settings *)

(** C8: in every configuration the file produces, [version] and
    [release] are the same string, and that string is "0.0.1". *)
Theorem version_equals_release (env : Env) (cfg : BuildConfiguration) :
  conf env = Ok cfg ->
  version cfg = release cfg /\ version cfg = "0.0.1" /\ release cfg = "0.0.1".
Proof. intros Hrun. conf_inv Hrun. repeat split. Qed.

(** C9: the configuration recognises exactly the two source suffixes
    ".rst" and ".md", in this order; both reStructuredText and
    Markdown sources are accepted. *)
Theorem source_suffix_rst_md (env : Env) (cfg : BuildConfiguration) :
  conf env = Ok cfg ->
  source_suffix cfg = [".rst"; ".md"] /\
  In ".rst" (source_suffix cfg) /\ In ".md" (source_suffix cfg).
Proof. intros Hrun. conf_inv Hrun. simpl. auto. Qed.

(** C4: the extension list is exactly myst_parser,
    sphinxcontrib.matlab, sphinx.ext.autodoc in this order; hence it
    is not empty and lists no extension twice. *)
Theorem extensions_exact (env : Env) (cfg : BuildConfiguration) :
  conf env = Ok cfg ->
  extensions cfg =
    ["myst_parser"; "sphinxcontrib.matlab"; "sphinx.ext.autodoc"] /\
  extensions cfg <> [] /\
  NoDup (extensions cfg).
Proof.
  intros Hrun. conf_inv Hrun. split; [reflexivity|]. split; [discriminate|].
  repeat constructor; simpl; intuition discriminate.
Qed.

(** C10: [html_static_path] is the one-element list "_static", and no
    element of it occurs among the exclusion patterns: the static
    asset directory is not excluded. *)
Theorem static_path_not_excluded (env : Env) (cfg : BuildConfiguration) :
  conf env = Ok cfg ->
  html_static_path cfg = ["_static"] /\
  forall s, In s (html_static_path cfg) -> ~ In s (exclude_patterns cfg).
Proof.
  intros Hrun. conf_inv Hrun. split; [reflexivity|].
  simpl. intros s [<-|[]]. intuition discriminate.
Qed.

(** C1, as the code has it: the exclusion patterns and the template
    path share exactly one string, "_templates".  The template
    directory is listed among the patterns skipped during source
    discovery; no other string occurs in both lists. *)
Theorem exclude_templates_common_element
    (env : Env) (cfg : BuildConfiguration) (s : string) :
  conf env = Ok cfg ->
  (In s (exclude_patterns cfg) /\ In s (templates_path cfg) <->
   s = "_templates").
Proof.
  intros Hrun. conf_inv Hrun. simpl. split.
  - intros [_ [H|[]]]. now symmetry.
  - intros ->. auto.
Qed.

(** C3: when the build runs in 2024 the copyright string is exactly
    "2017-2024, HED Working Group". *)
Theorem copyright_2024 (env : Env) (cfg : BuildConfiguration) :
  year (today env) = 2024%Z ->
  conf env = Ok cfg ->
  copyright cfg = "2017-2024, HED Working Group".
Proof. intros Hy Hrun. conf_inv Hrun. rewrite Hy. reflexivity. Qed.

(** [env_sphinx] runs to completion, so the statements above speak
    about at least one configuration. *)
Lemma version_equals_release_witness :
  exists cfg, conf env_sphinx = Ok cfg /\
    version cfg = release cfg /\ version cfg = "0.0.1" /\ release cfg = "0.0.1".
Proof.
  eexists. split; [reflexivity|].
  apply (version_equals_release env_sphinx). reflexivity.
Defined.

Lemma source_suffix_rst_md_witness :
  exists cfg, conf env_sphinx = Ok cfg /\
    source_suffix cfg = [".rst"; ".md"] /\
    In ".rst" (source_suffix cfg) /\ In ".md" (source_suffix cfg).
Proof.
  eexists. split; [reflexivity|].
  apply (source_suffix_rst_md env_sphinx). reflexivity.
Defined.

Lemma extensions_exact_witness :
  exists cfg, conf env_sphinx = Ok cfg /\
    extensions cfg =
      ["myst_parser"; "sphinxcontrib.matlab"; "sphinx.ext.autodoc"] /\
    extensions cfg <> [] /\
    NoDup (extensions cfg).
Proof.
  eexists. split; [reflexivity|].
  apply (extensions_exact env_sphinx). reflexivity.
Defined.

Lemma static_path_not_excluded_witness :
  exists cfg, conf env_sphinx = Ok cfg /\
    html_static_path cfg = ["_static"] /\
    forall s, In s (html_static_path cfg) -> ~ In s (exclude_patterns cfg).
Proof.
  eexists. split; [reflexivity|].
  apply (static_path_not_excluded env_sphinx). reflexivity.
Defined.

Lemma exclude_templates_common_element_witness :
  exists cfg, conf env_sphinx = Ok cfg /\
    (In "_templates" (exclude_patterns cfg) /\
     In "_templates" (templates_path cfg) <-> "_templates" = "_templates").
Proof.
  eexists. split; [reflexivity|].
  apply (exclude_templates_common_element env_sphinx _ "_templates"). reflexivity.
Defined.

Lemma copyright_2024_witness :
  exists cfg, conf env_sphinx = Ok cfg /\
    copyright cfg = "2017-2024, HED Working Group".
Proof.
  eexists. split; [reflexivity|].
  apply (copyright_2024 env_sphinx); reflexivity.
Defined.

(** C1, as worded: the two lists are not disjoint; "_templates" is in
    both in the configuration [env_sphinx] produces. *)
Lemma exclude_patterns_overlap_templates_path :
  ~ spec_exclude_disjoint_from_templates.
Proof.
  intros H.
  destruct (conf env_sphinx) as [cfg|e] eqn:E; [|discriminate E].
  apply (H env_sphinx cfg E "_templates");
    vm_compute in E; injection E as <-; simpl; auto.
Qed.

(** ** The copyright notice *)

Lemma startswith_app (p s : string) : str.startswith (p ++ s) p = true.
Proof.
  induction p as [|a p IH]; simpl; [reflexivity|].
  now rewrite Ascii.eqb_refl.
Qed.

Lemma startswith_inv (p s : string) :
  str.startswith s p = true -> exists t, s = p ++ t.
Proof.
  revert s. induction p as [|a p IH]; intros s H; simpl in *.
  - now exists s.
  - destruct s as [|b s]; [discriminate|].
    apply andb_true_iff in H. destruct H as [Hab H].
    apply Ascii.eqb_eq in Hab. subst b.
    destruct (IH s H) as [t ->]. now exists t.
Qed.

Lemma contains_unfold (s sub : string) :
  str.contains s sub =
  str.startswith s sub ||
  match s with
  | EmptyString => false
  | String _ s' => str.contains s' sub
  end.
Proof. destruct s; reflexivity. Qed.

Lemma contains_app (pre sub post : string) :
  str.contains (pre ++ sub ++ post) sub = true.
Proof.
  induction pre as [|a pre IH].
  - simpl append. rewrite contains_unfold, startswith_app. reflexivity.
  - simpl append. rewrite contains_unfold, IH. apply orb_true_r.
Qed.

(** [str.contains] is the substring test of Python's [in]. *)
Lemma contains_spec (s sub : string) :
  str.contains s sub = true <-> exists pre post, s = pre ++ sub ++ post.
Proof.
  split.
  - induction s as [|a s IH]; rewrite contains_unfold; intros H;
      apply orb_true_iff in H; destruct H as [H|H]; try discriminate.
    + apply startswith_inv in H. destruct H as [t ->]. now exists "", t.
    + apply startswith_inv in H. destruct H as [t ->]. now exists "", t.
    + destruct (IH H) as (pre & post & ->). now exists (String a pre), post.
  - intros (pre & post & ->). apply contains_app.
Qed.

(** C5: whatever the date of the run, the copyright statement returns
    a string (it does not raise), the string contains the start year
    2017 and the decimal year of the date; in the start year itself it
    reads "2017-2017, HED Working Group"; and it is the [copyright] of
    every configuration produced. *)
Theorem copyright_contains_both_years (env : Env) :
  exists c,
    copyright_stmt env = Ok c /\
    str.contains c "2017" = true /\
    str.contains c (str.of_int (year (today env))) = true /\
    (year (today env) = 2017%Z -> c = "2017-2017, HED Working Group") /\
    (forall cfg, conf env = Ok cfg -> copyright cfg = c).
Proof.
  exists ("2017-" ++ str.of_int (year (today env)) ++ ", HED Working Group").
  split; [apply copyright_stmt_eq|]. split; [|split; [|split]].
  - exact (contains_app "" "2017"
             ("-" ++ str.of_int (year (today env)) ++ ", HED Working Group")).
  - apply (contains_app "2017-").
  - intros ->. reflexivity.
  - intros cfg Hrun. conf_inv Hrun. reflexivity.
Qed.

Lemma copyright_contains_both_years_witness :
  exists c cfg,
    copyright_stmt env_2017 = Ok c /\
    conf env_2017 = Ok cfg /\
    c = "2017-2017, HED Working Group" /\
    copyright cfg = c.
Proof.
  destruct (copyright_contains_both_years env_2017)
    as (c & Hc & _ & _ & H2017 & Hcfg).
  exists c. eexists. split; [exact Hc|]. split; [reflexivity|].
  split; [apply H2017; reflexivity | apply Hcfg; reflexivity].
Defined.

(** ** Failure *)

(** C6: a run either completes with a configuration, and then the
    import of the theme package, the lookup of the working directory
    and the theme-path helper all went through, or it raises and
    returns no configuration at all.  The exception of a failed run is
    the one that came out of the import of the theme package (line
    15), out of the lookup of the working directory (line 32) or out
    of the theme-path helper (line 66), passed on as it is; of several
    that would fail, the first in source order decides.  No other
    statement of the file raises: line 24 always has the one argument
    its template asks for. *)
Theorem conf_failure_modes (env : Env) :
  match conf env with
  | Ok cfg =>
      exists m p d,
        import_theme env = Ok m /\
        get_html_theme_path m = Ok p /\
        getcwd env = Ok d /\
        html_theme_path cfg = [p]
  | Raise e =>
      import_theme env = Raise e \/
      (exists m, import_theme env = Ok m /\ getcwd env = Raise e) \/
      (exists m d,
          import_theme env = Ok m /\ getcwd env = Ok d /\
          get_html_theme_path m = Raise e)
  end.
Proof.
  unfold conf, import_sphinx_rtd_theme.
  destruct (import_theme env) as [m|e] eqn:Em; cbn [bind]; [|now left].
  rewrite copyright_stmt_eq. cbn [bind].
  unfold matlab_src_dir_stmt, os_getcwd.
  destruct (getcwd env) as [d|e] eqn:Ed; cbn.
  - unfold call_get_html_theme_path.
    destruct (get_html_theme_path m) as [p|e] eqn:Ep; cbn.
    + exists m, p, d. auto.
    + right; right. exists m, d. auto.
  - right; left. exists m. auto.
Qed.

(** ** Strings and path components *)

Lemma app_assoc_str (a b c : string) : (a ++ b) ++ c = a ++ b ++ c.
Proof. induction a as [|x a IH]; simpl; [reflexivity | now rewrite IH]. Qed.

Lemma plain_comp_ok (c : string) : plain c = true -> comp_ok c = true.
Proof.
  unfold plain, comp_ok. intros H.
  repeat (apply andb_true_iff in H; destruct H as [H ?]).
  apply andb_true_iff. split; assumption.
Qed.

Lemma forallb_plain_comp_ok (cs : list string) :
  forallb plain cs = true -> forallb comp_ok cs = true.
Proof.
  induction cs as [|c cs IH]; simpl; [reflexivity|].
  intros H. apply andb_true_iff in H. destruct H as [Hc Hcs].
  now rewrite (plain_comp_ok _ Hc), IH.
Qed.

Lemma comp_ok_inv (c : string) :
  comp_ok c = true -> c <> "" /\ has_sep c = false.
Proof.
  unfold comp_ok. intros H. apply andb_true_iff in H. destruct H as [H1 H2].
  apply negb_true_iff in H1, H2. split; [|exact H2].
  intros ->. discriminate.
Qed.

Section Split.

Let sep := posixpath.sep.

Lemma split_nosep (w : string) : has_sep w = false -> str.split sep w = [w].
Proof.
  induction w as [|a w IH]; simpl; [reflexivity|].
  intros H. apply orb_false_iff in H. destruct H as [Ha Hw].
  fold sep in Ha. rewrite Ha, (IH Hw). reflexivity.
Qed.

Lemma split_app_sep (w rest : string) :
  has_sep w = false ->
  str.split sep (w ++ String sep rest) = w :: str.split sep rest.
Proof.
  induction w as [|a w IH]; simpl.
  - intros _. reflexivity.
  - intros H. apply orb_false_iff in H. destruct H as [Ha Hw].
    fold sep in Ha. rewrite Ha, (IH Hw). reflexivity.
Qed.

Lemma join_cons2 (c c' : string) (l : list string) :
  str.join "/" (c :: c' :: l) = c ++ String sep (str.join "/" (c' :: l)).
Proof. reflexivity. Qed.

(** Splitting undoes joining when no component holds a slash. *)
Lemma split_join (cs : list string) :
  cs <> [] -> forallb comp_ok cs = true ->
  str.split sep (str.join "/" cs) = cs.
Proof.
  induction cs as [|c cs IH]; [congruence|].
  intros _ H. simpl in H. apply andb_true_iff in H. destruct H as [Hc Hcs].
  destruct (comp_ok_inv _ Hc) as [_ Hsep].
  destruct cs as [|c' cs].
  - apply split_nosep, Hsep.
  - rewrite join_cons2, split_app_sep by exact Hsep.
    f_equal. apply IH; [discriminate | exact Hcs].
Qed.

Lemma join_nonempty (cs : list string) :
  cs <> [] -> forallb comp_ok cs = true -> str.join "/" cs <> "".
Proof.
  destruct cs as [|c cs]; [congruence|]. intros _ H.
  simpl in H. apply andb_true_iff in H. destruct H as [Hc _].
  destruct (comp_ok_inv _ Hc) as [Hne _].
  destruct c as [|a c]; [congruence|].
  destruct cs; discriminate.
Qed.

Lemma join_app (l1 l2 : list string) :
  l1 <> [] -> l2 <> [] ->
  str.join "/" (l1 ++ l2)%list = str.join "/" l1 ++ "/" ++ str.join "/" l2.
Proof.
  induction l1 as [|c l1 IH]; [congruence|]. intros _ H2.
  destruct l1 as [|c' l1].
  - destruct l2; [congruence | reflexivity].
  - change ((c :: c' :: l1) ++ l2)%list with (c :: c' :: (l1 ++ l2)%list).
    rewrite !join_cons2. change (c' :: (l1 ++ l2)%list) with ((c' :: l1) ++ l2)%list.
    rewrite IH by (discriminate || assumption).
    now rewrite app_assoc_str.
Qed.

Lemma endswith_app (s t : string) (c : ascii) :
  t <> "" -> str.endswith (s ++ t) c = str.endswith t c.
Proof.
  intros Ht. induction s as [|a s IH]; [reflexivity|].
  simpl append. simpl. rewrite IH.
  destruct (s ++ t) eqn:E; [|reflexivity].
  destruct s; simpl in E; [congruence | discriminate].
Qed.

Lemma endswith_nosep (w : string) :
  has_sep w = false -> str.endswith w sep = false.
Proof.
  induction w as [|a w IH]; simpl; [reflexivity|].
  intros H. apply orb_false_iff in H. destruct H as [Ha Hw].
  destruct w; [exact Ha | exact (IH Hw)].
Qed.

Lemma endswith_join (cs : list string) :
  cs <> [] -> forallb comp_ok cs = true ->
  str.endswith (str.join "/" cs) sep = false.
Proof.
  induction cs as [|c cs IH]; [congruence|].
  intros _ H. simpl in H. apply andb_true_iff in H. destruct H as [Hc Hcs].
  destruct (comp_ok_inv _ Hc) as [_ Hsep].
  destruct cs as [|c' cs].
  - apply endswith_nosep, Hsep.
  - rewrite join_cons2.
    change (c ++ String sep (str.join "/" (c' :: cs)))
      with (c ++ "/" ++ str.join "/" (c' :: cs)).
    rewrite <- app_assoc_str, endswith_app.
    + apply IH; [discriminate | exact Hcs].
    + apply join_nonempty; [discriminate | exact Hcs].
Qed.

End Split.

(** ** normpath on absolute paths *)

Lemma normpath_step_plain (n : nat) (acc : list string) (c : string) :
  plain c = true -> posixpath.normpath_step n acc c = (acc ++ [c])%list.
Proof.
  unfold plain, posixpath.normpath_step. intros H.
  repeat (apply andb_true_iff in H; destruct H as [H ?]).
  repeat match goal with
         | Hn : negb _ = true |- _ => apply negb_true_iff in Hn; try rewrite Hn
         end.
  reflexivity.
Qed.

Lemma fold_normpath_step_plain (n : nat) (cs acc : list string) :
  forallb plain cs = true ->
  fold_left (posixpath.normpath_step n) cs acc = (acc ++ cs)%list.
Proof.
  revert acc. induction cs as [|c cs IH]; intros acc H; simpl.
  - now rewrite app_nil_r.
  - simpl in H. apply andb_true_iff in H. destruct H as [Hc Hcs].
    rewrite normpath_step_plain by exact Hc.
    rewrite IH by exact Hcs. now rewrite <- app_assoc.
Qed.

Lemma forallb_removelast {A : Type} (f : A -> bool) (l : list A) :
  forallb f l = true -> forallb f (removelast l) = true.
Proof.
  induction l as [|a l IH]; [auto|]. intros H.
  simpl in H. apply andb_true_iff in H. destruct H as [Ha Hl].
  destruct l as [|b l]; [reflexivity|].
  change (removelast (a :: b :: l)) with (a :: removelast (b :: l)).
  cbn [forallb]. rewrite Ha. exact (IH Hl).
Qed.

Lemma last_plain (acc : list string) :
  acc <> [] -> forallb plain acc = true -> (last acc "" =? "..") = false.
Proof.
  intros Hne H.
  rewrite (app_removelast_last "" Hne) in H.
  rewrite forallb_app in H. apply andb_true_iff in H. destruct H as [_ H].
  simpl in H. rewrite andb_true_r in H. unfold plain in H.
  repeat (apply andb_true_iff in H; destruct H as [H ?]).
  now apply negb_true_iff.
Qed.

(** Below a root, [..] drops the last component, and stays at the
    root when there is none. *)
Lemma normpath_step_dotdot (acc : list string) :
  forallb plain acc = true ->
  posixpath.normpath_step 1 acc ".." = removelast acc.
Proof.
  intros H. unfold posixpath.normpath_step.
  destruct acc as [|a acc]; [reflexivity|].
  rewrite last_plain by (discriminate || exact H). reflexivity.
Qed.

Lemma join_not_startswith_sep (l : list string) :
  forallb comp_ok l = true -> str.startswith (str.join "/" l) "/" = false.
Proof.
  destruct l as [|c l]; [reflexivity|]. intros H.
  simpl in H. apply andb_true_iff in H. destruct H as [Hc _].
  unfold comp_ok in Hc. apply andb_true_iff in Hc. destruct Hc as [Hne Hsep].
  destruct c as [|a c]; [discriminate|].
  apply negb_true_iff in Hsep. simpl in Hsep.
  apply orb_false_iff in Hsep. destruct Hsep as [Ha _].
  unfold posixpath.sep in Ha.
  destruct l; simpl; now rewrite Ha.
Qed.

Lemma initial_slashes_abs_of (l : list string) :
  forallb comp_ok l = true -> posixpath.initial_slashes (abs_of l) = 1.
Proof.
  intros H. unfold posixpath.initial_slashes, abs_of.
  change (str.startswith ("/" ++ str.join "/" l) "//")
    with (str.startswith (str.join "/" l) "/").
  now rewrite (join_not_startswith_sep l H).
Qed.

(** [normpath] of an absolute path given by its components: the loop
    over the components decides the result. *)
Lemma normpath_abs_of (l res : list string) :
  forallb comp_ok l = true ->
  fold_left (posixpath.normpath_step 1) l [] = res ->
  posixpath.normpath (abs_of l) = abs_of res.
Proof.
  intros Hl Hres. unfold posixpath.normpath.
  change (abs_of l =? "") with false. cbv iota.
  rewrite initial_slashes_abs_of by exact Hl.
  assert (Hfold : fold_left (posixpath.normpath_step 1)
                    (str.split posixpath.sep (abs_of l)) [] = res).
  { destruct l as [|c l]; [exact Hres|].
    unfold abs_of. change ("/" ++ ?x) with (String posixpath.sep x).
    change (str.split posixpath.sep (String posixpath.sep ?x))
      with ("" :: str.split posixpath.sep x).
    rewrite split_join by (discriminate || exact Hl). exact Hres. }
  rewrite Hfold. reflexivity.
Qed.


(** Line 32 spelled out for a working directory [/c1/.../cn]. *)
Lemma join_cwd_dotdot (cs : list string) :
  forallb plain cs = true ->
  posixpath.join (abs_of cs) [posixpath.join ".." [".."]] =
  abs_of (cs ++ [".."; ".."]).
Proof.
  intros H. apply forallb_plain_comp_ok in H.
  change (posixpath.join ".." [".."]) with "../..".
  unfold posixpath.join. cbn [fold_left]. unfold posixpath.join_step.
  change (str.startswith "../.." "/") with false. cbv iota.
  change (abs_of cs =? "") with false. cbn [orb].
  destruct cs as [|c cs]; [reflexivity|].
  unfold abs_of at 1.
  rewrite endswith_app by (apply join_nonempty; [discriminate | exact H]).
  rewrite endswith_join by (discriminate || exact H).
  unfold abs_of. rewrite join_app by discriminate.
  rewrite app_assoc_str. reflexivity.
Qed.

Lemma abspath_dotdot_dotdot (cs : list string) :
  forallb plain cs = true ->
  posixpath.abspath (Ok (abs_of cs)) (posixpath.join ".." [".."]) =
  Ok (abs_of (removelast (removelast cs))).
Proof.
  intros H. unfold posixpath.abspath.
  change (posixpath.isabs (posixpath.join ".." [".."])) with false.
  cbv iota. cbn [bind]. f_equal.
  rewrite join_cwd_dotdot by exact H.
  apply normpath_abs_of.
  - rewrite forallb_app, (forallb_plain_comp_ok _ H). reflexivity.
  - rewrite fold_left_app, (fold_normpath_step_plain 1 cs [] H).
    cbn [fold_left app].
    rewrite (normpath_step_dotdot cs H).
    apply normpath_step_dotdot, forallb_removelast, H.
Qed.

(** ** normpath is idempotent on absolute paths *)












(** ** The source root *)

Lemma cwd_Some (env : Env) (d : string) :
  cwd env = Some d -> getcwd env = Ok d.
Proof.
  unfold cwd. destruct (getcwd env); intros E; [congruence | discriminate].
Qed.

Lemma matlab_src_dir_stmt_cwd (env : Env) (d : string) :
  cwd env = Some d ->
  matlab_src_dir_stmt env =
  Ok (posixpath.normpath (posixpath.join d [posixpath.join ".." [".."]])).
Proof.
  intros E. unfold matlab_src_dir_stmt, os_getcwd.
  now rewrite (cwd_Some env d E).
Qed.

Lemma conf_matlab_src_dir (env : Env) (cfg : BuildConfiguration) :
  conf env = Ok cfg -> matlab_src_dir_stmt env = Ok (matlab_src_dir cfg).
Proof. intros Hrun. conf_inv Hrun. assumption. Qed.

Lemma matlab_src_dir_stmt_getcwd_raises (env : Env) (e : exception) :
  getcwd env = Raise e -> matlab_src_dir_stmt env = Raise e.
Proof.
  intros E. unfold matlab_src_dir_stmt, os_getcwd. now rewrite E.
Qed.

Lemma conf_getcwd_raises (env : Env) (e : exception) (m : theme_module) :
  import_theme env = Ok m -> getcwd env = Raise e -> conf env = Raise e.
Proof.
  intros Em E. unfold conf, import_sphinx_rtd_theme. rewrite Em.
  cbn [bind]. rewrite copyright_stmt_eq. cbn [bind].
  now rewrite (matlab_src_dir_stmt_getcwd_raises env e E).
Qed.

(** C2: run as the documentation builder runs it, from the directory
    that holds conf.py, the file sets the source root to "../.." made
    absolute against that directory, the script's own location, and
    no other: for a script in /c1/.../cn the source root is
    /c1/.../c(n-2), and the root when n <= 2.  When the operating
    system cannot resolve the directory, the exception of
    [os.getcwd()] leaves line 32 as it is, the run ends there and no
    configuration is produced. *)
Theorem matlab_src_dir_two_levels_above_script (env : Env) :
  (cwd env = Some (conf_dir env) ->
     matlab_src_dir_stmt env =
       Ok (posixpath.normpath
             (posixpath.join (conf_dir env) [posixpath.join ".." [".."]])) /\
     (forall cfg, conf env = Ok cfg ->
        matlab_src_dir cfg =
        posixpath.normpath
          (posixpath.join (conf_dir env) [posixpath.join ".." [".."]])) /\
     (forall cs, forallb plain cs = true -> conf_dir env = abs_of cs ->
        matlab_src_dir_stmt env =
        Ok (abs_of (removelast (removelast cs))))) /\
  (forall e, getcwd env = Raise e ->
     matlab_src_dir_stmt env = Raise e /\
     (forall cfg, conf env <> Ok cfg) /\
     (forall m, import_theme env = Ok m -> conf env = Raise e)).
Proof.
  split.
  - intros E. pose proof (matlab_src_dir_stmt_cwd env _ E) as Hs.
    split; [exact Hs|]. split.
    + intros cfg Hrun. apply conf_matlab_src_dir in Hrun. congruence.
    + intros cs Hp Ecs. unfold matlab_src_dir_stmt, os_getcwd.
      rewrite (cwd_Some env _ E), Ecs. now apply abspath_dotdot_dotdot.
  - intros e E. pose proof (matlab_src_dir_stmt_getcwd_raises env e E) as Hs.
    split; [exact Hs|]. split.
    + intros cfg Hrun. apply conf_matlab_src_dir in Hrun. congruence.
    + intros m Em. now apply (conf_getcwd_raises env e m).
Qed.

Lemma matlab_src_dir_two_levels_above_script_witness :
  (exists cfg, conf env_sphinx = Ok cfg /\ matlab_src_dir cfg = "/repo") /\
  matlab_src_dir_stmt env_sphinx = Ok "/repo" /\
  conf env_no_cwd = Raise FileNotFoundError.
Proof.
  destruct (matlab_src_dir_two_levels_above_script env_sphinx) as [H _].
  destruct (H eq_refl) as (_ & Hcfg & Hcs).
  destruct (matlab_src_dir_two_levels_above_script env_no_cwd) as [_ Hraise].
  destruct (Hraise FileNotFoundError eq_refl) as (_ & _ & Hconf).
  split; [|split].
  - eexists. split; [reflexivity|]. apply Hcfg. reflexivity.
  - apply (Hcs ["repo"; "docs"; "source"]); reflexivity.
  - apply (Hconf rtd_theme). reflexivity.
Defined.



(** * Further properties of the module *)

(** ** The source root as a path *)

Lemma join_step_abs_of (cs : list string) (a : string) :
  forallb plain cs = true -> comp_ok a = true ->
  posixpath.join_step (abs_of cs) a = abs_of (cs ++ [a]).
Proof.
  intros H Ha. apply forallb_plain_comp_ok in H.
  unfold posixpath.join_step.
  assert (Hs : str.startswith a "/" = false).
  { apply (join_not_startswith_sep [a]). simpl. now rewrite Ha. }
  rewrite Hs. change (abs_of cs =? "") with false. cbn [orb].
  destruct cs as [|c cs]; [reflexivity|].
  unfold abs_of at 1.
  rewrite endswith_app by (apply join_nonempty; [discriminate | exact H]).
  rewrite endswith_join by (discriminate || exact H).
  unfold abs_of. rewrite join_app by discriminate.
  rewrite app_assoc_str. reflexivity.
Qed.

Lemma abs_of_inj (l1 l2 : list string) :
  forallb comp_ok l1 = true -> forallb comp_ok l2 = true ->
  abs_of l1 = abs_of l2 -> l1 = l2.
Proof.
  intros H1 H2 E. unfold abs_of in E. injection E as E.
  destruct l1 as [|a l1], l2 as [|b l2].
  - reflexivity.
  - exfalso. symmetry in E. revert E.
    apply join_nonempty; [discriminate | exact H2].
  - exfalso. revert E. apply join_nonempty; [discriminate | exact H1].
  - rewrite <- (split_join (a :: l1)) by (discriminate || exact H1).
    rewrite <- (split_join (b :: l2)) by (discriminate || exact H2).
    now rewrite E.
Qed.

Lemma length_removelast {A : Type} (l : list A) :
  length (removelast l) = pred (length l).
Proof.
  induction l as [|a l IH]; [reflexivity|].
  destruct l as [|b l]; [reflexivity|].
  change (removelast (a :: b :: l)) with (a :: removelast (b :: l)).
  cbn [length]. rewrite IH. reflexivity.
Qed.



(** X2: going down from the source root by the last two components of
    the working directory leads back to the working directory:
    [os.path.join(matlab_src_dir, a, b)] is the directory /.../a/b the
    process ran in. *)
Theorem matlab_src_dir_join_back
    (env : Env) (cfg : BuildConfiguration) (cs : list string) (a b : string) :
  forallb plain (cs ++ [a; b]) = true ->
  cwd env = Some (abs_of (cs ++ [a; b])) ->
  conf env = Ok cfg ->
  posixpath.join (matlab_src_dir cfg) [a; b] = abs_of (cs ++ [a; b]).
Proof.
  intros Hp Ed Hrun. apply conf_matlab_src_dir in Hrun.
  unfold matlab_src_dir_stmt, os_getcwd in Hrun.
  rewrite (cwd_Some _ _ Ed) in Hrun.
  rewrite (abspath_dotdot_dotdot _ Hp) in Hrun.
  assert (Hr : matlab_src_dir cfg = abs_of cs).
  { injection Hrun as <-.
    change (cs ++ [a; b])%list with (cs ++ [a] ++ [b])%list.
    rewrite app_assoc, !removelast_last. reflexivity. }
  rewrite forallb_app in Hp. apply andb_true_iff in Hp.
  destruct Hp as [Hcs Hab]. cbn [forallb] in Hab.
  apply andb_true_iff in Hab. destruct Hab as [Ha Hb].
  rewrite andb_true_r in Hb.
  rewrite Hr. unfold posixpath.join. cbn [fold_left].
  rewrite (join_step_abs_of cs a Hcs (plain_comp_ok _ Ha)).
  rewrite join_step_abs_of.
  - now rewrite <- app_assoc.
  - rewrite forallb_app, Hcs. cbn [forallb]. now rewrite Ha.
  - now apply plain_comp_ok.
Qed.

Lemma matlab_src_dir_join_back_witness :
  exists cfg,
    conf env_sphinx = Ok cfg /\
    posixpath.join (matlab_src_dir cfg) ["docs"; "source"] =
    "/repo/docs/source".
Proof.
  eexists. split; [reflexivity|].
  apply (matlab_src_dir_join_back env_sphinx _ ["repo"] "docs" "source");
    reflexivity.
Defined.

(** X3: the source root is the working directory itself only when the
    process runs in the root directory; from any directory below the
    root it is a different path. *)
Theorem matlab_src_dir_is_cwd_only_at_root
    (env : Env) (cfg : BuildConfiguration) (cs : list string) :
  forallb plain cs = true ->
  cwd env = Some (abs_of cs) ->
  conf env = Ok cfg ->
  (matlab_src_dir cfg = abs_of cs <-> cs = []).
Proof.
  intros Hp Ed Hrun. apply conf_matlab_src_dir in Hrun.
  unfold matlab_src_dir_stmt, os_getcwd in Hrun.
  rewrite (cwd_Some _ _ Ed) in Hrun.
  rewrite (abspath_dotdot_dotdot _ Hp) in Hrun.
  assert (Hr : matlab_src_dir cfg = abs_of (removelast (removelast cs)))
    by congruence.
  rewrite Hr. split.
  - intros E. apply abs_of_inj in E.
    + apply (f_equal (@length string)) in E.
      rewrite !length_removelast in E.
      destruct cs as [|c cs]; [reflexivity|]. cbn [length] in E. lia.
    + now apply forallb_plain_comp_ok, forallb_removelast, forallb_removelast.
    + now apply forallb_plain_comp_ok.
  - intros ->. reflexivity.
Qed.

Lemma matlab_src_dir_is_cwd_only_at_root_witness :
  exists cfg,
    conf env_sphinx = Ok cfg /\
    (matlab_src_dir cfg = "/repo/docs/source" <->
     ["repo"; "docs"; "source"] = []).
Proof.
  eexists. split; [reflexivity|].
  apply (matlab_src_dir_is_cwd_only_at_root env_sphinx _
           ["repo"; "docs"; "source"]); reflexivity.
Defined.

(** ** The copyright notice and the year *)

Lemma to_int_not_nil (z : Z) :
  Z.to_int z <> Decimal.Pos Decimal.Nil /\
  Z.to_int z <> Decimal.Neg Decimal.Nil.
Proof.
  split; intros E; pose proof (f_equal Z.of_int E) as E';
    rewrite DecimalZ.of_to in E'; cbn in E'; subst z; discriminate E.
Qed.

(** [str] of an int tells ints apart. *)
Lemma of_int_inj (a b : Z) : str.of_int a = str.of_int b -> a = b.
Proof.
  unfold str.of_int. intros E.
  apply (f_equal NilZero.int_of_string) in E.
  destruct (to_int_not_nil a) as [Ha1 Ha2].
  destruct (to_int_not_nil b) as [Hb1 Hb2].
  rewrite !NilZero.isi in E by assumption.
  injection E as E. now apply DecimalZ.to_int_inj.
Qed.

Lemma length_append (a b : string) :
  String.length (a ++ b) = String.length a + String.length b.
Proof. induction a as [|x a IH]; simpl; [reflexivity | now rewrite IH]. Qed.

Lemma append_cancel_r (a b s : string) : a ++ s = b ++ s -> a = b.
Proof.
  revert b. induction a as [|x a IH]; intros [|y b] E.
  - reflexivity.
  - exfalso. apply (f_equal String.length) in E.
    simpl in E. rewrite length_append in E. lia.
  - exfalso. apply (f_equal String.length) in E.
    simpl in E. rewrite length_append in E. lia.
  - simpl in E. injection E as -> E. f_equal. now apply IH.
Qed.

(** X4: two produced configurations carry the same copyright notice
    exactly when their runs fall in the same calendar year: the notice
    changes with every change of year, before 2017 as well as after,
    and with nothing else. *)
Theorem copyright_same_iff_same_year
    (env1 env2 : Env) (cfg1 cfg2 : BuildConfiguration) :
  conf env1 = Ok cfg1 -> conf env2 = Ok cfg2 ->
  (copyright cfg1 = copyright cfg2 <->
   year (today env1) = year (today env2)).
Proof.
  intros H1 H2. conf_inv H1. conf_inv H2. split.
  - intros E. cbn [append] in E. repeat injection E as E.
    apply append_cancel_r in E. now apply of_int_inj.
  - intros ->. reflexivity.
Qed.

Lemma copyright_same_iff_same_year_witness :
  exists cfg1 cfg2,
    conf env_sphinx = Ok cfg1 /\ conf env_2017 = Ok cfg2 /\
    (copyright cfg1 = copyright cfg2 <-> 2024%Z = 2017%Z).
Proof.
  do 2 eexists. split; [reflexivity|]. split; [reflexivity|].
  apply (copyright_same_iff_same_year env_sphinx env_2017); reflexivity.
Defined.
